(** * User authentication service: the [Auth] state machine over the user store

    Shallow embedding of
      - [0x03-user_authentication_service/user.py]  (the [User] row),
      - [0x03-user_authentication_service/auth.py]  (hashing, token generation
        and the seven operations of [Auth]),
      - [0x01-Basic_authentication/api/v1/auth/auth.py]  (the base [Auth] stub).

    Python exceptions are values of [exn]; a method is a function from the
    state before the call to its outcome (a raised exception or a returned
    value) and the state after it.  The state holds the rows of the [users]
    table, the list of calls made to the store, and the number of draws taken
    from the operating system's entropy source. *)

From Stdlib Require Import List String Ascii ZArith Bool Lia.
From Stdlib Require Import Strings.Byte.
Import ListNotations.

Local Open Scope Z_scope.

(** ** Data model *)

(** Python [bytes]. *)
Definition bytes := list byte.

(** Python [str], held as its UTF-8 text: [password.encode('utf-8')]. *)
Definition encode_utf8 (s : string) : bytes := list_byte_of_string s.

(** [user.py]: one row of the [users] table.  [session_id] and [reset_token]
    are the nullable columns. *)
Record User := mkUser {
  id : Z;
  email : string;
  hashed_password : bytes;
  session_id : option string;
  reset_token : option string
}.

(** The exceptions the service handles: [sqlalchemy.orm.exc.NoResultFound] and
    the builtin [ValueError]. *)
Inductive exn := NoResultFound | ValueError.

(** The keyword argument of [find_user_by]: one column and the value sought. *)
Inductive query :=
| ByEmail (e : string)
| BySessionId (t : string)
| ByResetToken (t : string).

(** One keyword argument of [update_user]: a column and its new value. *)
Inductive assign :=
| SetSessionId (v : option string)
| SetResetToken (v : option string)
| SetHashedPassword (v : bytes).

(** A call received by the store. *)
Inductive db_call :=
| FindUserBy (q : query)
| AddUser (e : string)
| UpdateUser (uid : Z) (kw : list assign).

Record state := mkState {
  rows : list User;
  calls : list db_call;
  draws : nat
}.

Definition init : state := mkState [] [] 0.

(** ** Methods as state transformers that may raise *)

Definition M (A : Type) : Type := state -> (exn + A) * state.

Definition ret {A} (a : A) : M A := fun s => (inr a, s).

Definition raise {A} (e : exn) : M A := fun s => (inl e, s).

Definition bind {A B} (m : M A) (k : A -> M B) : M B :=
  fun s => match m s with
           | (inr a, s') => k a s'
           | (inl e, s') => (inl e, s')
           end.

(** The body of a [try]: its outcome is handed to the [except] clauses. *)
Definition attempt {A} (m : M A) : M (exn + A) :=
  fun s => let (r, s') := m s in (inr r, s').

Declare Scope py_scope.
Delimit Scope py_scope with py.
Notation "x <- m ;; k" := (bind m (fun x => k))
  (at level 100, m at next level, right associativity) : py_scope.
Notation "m ;;; k" := (bind m (fun _ => k))
  (at level 100, right associativity) : py_scope.
Local Open Scope py_scope.

(** ** The user store *)

Definition opt_is (t : string) (o : option string) : bool :=
  match o with
  | Some t' => String.eqb t' t
  | None => false
  end.

Definition matches (q : query) (u : User) : bool :=
  match q with
  | ByEmail e => String.eqb (email u) e
  | BySessionId t => opt_is t (session_id u)
  | ByResetToken t => opt_is t (reset_token u)
  end.

Definition apply_assign (u : User) (a : assign) : User :=
  match a with
  | SetSessionId v =>
      mkUser (id u) (email u) (hashed_password u) v (reset_token u)
  | SetResetToken v =>
      mkUser (id u) (email u) (hashed_password u) (session_id u) v
  | SetHashedPassword v =>
      mkUser (id u) (email u) v (session_id u) (reset_token u)
  end.

Definition apply_kwargs (kw : list assign) (u : User) : User :=
  fold_left apply_assign kw u.

Definition has_id (uid : Z) (u : User) : bool := id u =? uid.

(** The id the table gives its next row: one more than the largest in use. *)
Definition next_id (us : list User) : Z :=
  1 + fold_right Z.max 0 (map id us).

Definition update_rows (uid : Z) (kw : list assign) (us : list User)
  : list User :=
  map (fun u => if has_id uid u then apply_kwargs kw u else u) us.

Definition set_rows (us : list User) (s : state) : state :=
  mkState us (calls s) (draws s).

Definition logged (c : db_call) (s : state) : state :=
  mkState (rows s) (calls s ++ [c]) (draws s).

Definition record_call (c : db_call) : M unit :=
  fun s => (inr tt, logged c s).

(** Modelled from the spec: [DB.find_user_by] ([db.py] is not among the
    sources).  "Returns exactly one matching user or fails with NotFound.  Must
    fail when zero or when the caller's expectation of uniqueness is
    violated." *)
Definition find_user_by (q : query) : M User :=
  record_call (FindUserBy q) ;;;
  fun s => match filter (matches q) (rows s) with
           | [u] => (inr u, s)
           | _ => (inl NoResultFound, s)
           end.

(** Modelled from the spec: [DB.add_user].  "Creates and returns a new user
    with a freshly assigned id, null session_id, null reset_token." *)
Definition add_user (e : string) (hashed : bytes) : M User :=
  record_call (AddUser e) ;;;
  fun s => let u := mkUser (next_id (rows s)) e hashed None None in
           (inr u, set_rows (rows s ++ [u]) s).

(** Modelled from the spec: the failure of [DB.update_user] on an id that does
    not exist, "NotFound/InvalidReference".  It is taken to be the exception
    that its caller [Auth.destroy_session] is written to catch. *)
Definition unknown_id_error : exn := ValueError.

(** Modelled from the spec: [DB.update_user].  "Applies a partial update (any
    subset of session_id, reset_token, hashed_password); fails if id does not
    exist." *)
Definition update_user (uid : Z) (kw : list assign) : M unit :=
  record_call (UpdateUser uid kw) ;;;
  fun s => if existsb (has_id uid) (rows s)
           then (inr tt, set_rows (update_rows uid kw (rows s)) s)
           else (inl unknown_id_error, s).

(** ** The base class of Basic authentication *)

Module BasicAuth.

(** What the stub reads of a [flask.Request]: its headers. *)
Record Request := mkRequest { headers : list (string * string) }.

Definition require_auth (path : string) (excluded_paths : list string)
  : bool := false.

Definition authorization_header (request : option Request)
  : option string := None.

Definition current_user (request : option Request) : option User := None.

End BasicAuth.

(** ** Python values and their equality *)

(** The two kinds of value a password and its digest are: [str] and [bytes]. *)
Inductive pyval :=
| PyStr (s : string)
| PyBytes (b : bytes).

Definition bytes_eqb (a b : bytes) : bool :=
  if list_eq_dec Byte.byte_eq_dec a b then true else false.

(** Python's [==]: a [str] and a [bytes] never compare equal. *)
Definition py_eq (x y : pyval) : bool :=
  match x, y with
  | PyStr a, PyStr b => String.eqb a b
  | PyBytes a, PyBytes b => bytes_eqb a b
  | _, _ => false
  end.

(** Outcome and final state of a call. *)
Definition result {A} (m : M A) (s : state) : exn + A := fst (m s).
Definition exec {A} (m : M A) (s : state) : state := snd (m s).

(** ** A concrete entropy source and hash, for running the service *)

Fixpoint is_prefix (p h : bytes) : bool :=
  match p, h with
  | [], _ => true
  | a :: p', b :: h' => Byte.eqb a b && is_prefix p' h'
  | _ :: _, [] => false
  end.

Definition sample_uuid4 (n : nat) : string :=
  string_of_list_ascii (repeat "u"%char (S n)).

Definition sample_gensalt (n : nat) : bytes := repeat x24 (S n).

Definition sample_hashpw (password salt : bytes) : bytes :=
  (password ++ salt)%list.

Definition sample_checkpw (password hashed : bytes) : bool :=
  is_prefix password hashed.

Definition alice : User :=
  mkUser 1 "alice@x.com"%string (sample_hashpw (encode_utf8 "pw"%string) (sample_gensalt 0))
         None None.

Definition bob : User :=
  mkUser 2 "bob@x.com"%string (sample_hashpw (encode_utf8 "hunter2"%string) (sample_gensalt 1))
         (Some ""%string) None.

Definition two_users : state := mkState [alice; bob] [] 2.

Definition erin : User :=
  mkUser 1 "erin@x.com" (sample_hashpw (encode_utf8 "pw") (sample_gensalt 0))
         (Some "s-erin"%string) (Some "r-erin"%string).

Definition frank : User :=
  mkUser 2 "frank@x.com" (sample_hashpw (encode_utf8 "pw") (sample_gensalt 1))
         (Some "s-frank"%string) None.

(** Two users with open sessions; erin also has a password reset pending. *)
Definition active_users : state := mkState [erin; frank] [] 2.

(** ** The authentication service *)

Section Auth.

(** The entropy source: what [uuid4] and [bcrypt.gensalt] return at the
    n-th draw. *)
Variable uuid4 : nat -> string.
Variable gensalt : nat -> bytes.

(** [bcrypt.hashpw password salt] and [bcrypt.checkpw password hashed], as
    the values bcrypt returns.  The inputs on which bcrypt raises instead (a
    stored hash that is no bcrypt digest, a password it finds too long) are
    outside this model: nothing below speaks of a failure of a call that
    hashes or checks a password. *)
Variable hashpw : bytes -> bytes -> bytes.
Variable checkpw : bytes -> bytes -> bool.

Definition draw : M nat :=
  fun s => (inr (draws s), mkState (rows s) (calls s) (S (draws s))).

Definition _hash_password (password : string) : M bytes :=
  let passwd := encode_utf8 password in
  n <- draw ;;
  ret (hashpw passwd (gensalt n)).

Definition _generate_uuid : M string :=
  n <- draw ;;
  ret (uuid4 n).

Definition register_user (email password : string) : M User :=
  found <- attempt (find_user_by (ByEmail email)) ;;
  match found with
  | inl NoResultFound =>
      hashed <- _hash_password password ;;
      usr <- add_user email hashed ;;
      ret usr
  | inl e => raise e
  | inr _ => raise ValueError
  end.

Definition valid_login (email password : string) : M bool :=
  found <- attempt (find_user_by (ByEmail email)) ;;
  match found with
  | inl NoResultFound => ret false
  | inl e => raise e
  | inr user =>
      let user_password := hashed_password user in
      let passwd := encode_utf8 password in
      ret (checkpw passwd user_password)
  end.

Definition create_session (email : string) : M (option string) :=
  found <- attempt (find_user_by (ByEmail email)) ;;
  match found with
  | inl NoResultFound => ret None
  | inl e => raise e
  | inr user =>
      session_id <- _generate_uuid ;;
      update_user (id user) [SetSessionId (Some session_id)] ;;;
      ret (Some session_id)
  end.

Definition get_user_from_session_id (session_id : option string)
  : M (option User) :=
  match session_id with
  | None => ret None
  | Some sid =>
      found <- attempt (find_user_by (BySessionId sid)) ;;
      match found with
      | inl NoResultFound => ret None
      | inl e => raise e
      | inr user => ret (Some user)
      end
  end.

Definition destroy_session (user_id : Z) : M unit :=
  r <- attempt (update_user user_id [SetSessionId None]) ;;
  match r with
  | inl ValueError => ret tt
  | inl e => raise e
  | inr _ => ret tt
  end.

Definition get_reset_password_token (email : string) : M string :=
  found <- attempt (find_user_by (ByEmail email)) ;;
  match found with
  | inl NoResultFound => raise ValueError
  | inl e => raise e
  | inr user =>
      reset_token <- _generate_uuid ;;
      update_user (id user) [SetResetToken (Some reset_token)] ;;;
      ret reset_token
  end.

Definition update_password (reset_token password : string) : M unit :=
  found <- attempt (find_user_by (ByResetToken reset_token)) ;;
  match found with
  | inl NoResultFound => raise ValueError
  | inl e => raise e
  | inr user =>
      hashed <- _hash_password password ;;
      update_user (id user) [SetHashedPassword hashed; SetResetToken None]
  end.

(** ** Sequences of calls *)

(** One call to a method of [Auth], with its arguments. *)
Inductive call :=
| RegisterUser (email password : string)
| ValidLogin (email password : string)
| CreateSession (email : string)
| GetUserFromSessionId (session_id : option string)
| DestroySession (user_id : Z)
| GetResetPasswordToken (email : string)
| UpdatePassword (reset_token password : string).

(** The state a call leaves, whether it returned or raised. *)
Definition perform (c : call) (s : state) : state :=
  match c with
  | RegisterUser e p => exec (register_user e p) s
  | ValidLogin e p => exec (valid_login e p) s
  | CreateSession e => exec (create_session e) s
  | GetUserFromSessionId sid => exec (get_user_from_session_id sid) s
  | DestroySession uid => exec (destroy_session uid) s
  | GetResetPasswordToken e => exec (get_reset_password_token e) s
  | UpdatePassword t p => exec (update_password t p) s
  end.

(** The state after a sequence of calls on a new, empty table. *)
Definition run (cs : list call) : state :=
  fold_left (fun s c => perform c s) cs init.

(** The exception a call raises, if it raises. *)
Definition raised {A} (m : M A) (s : state) : option exn :=
  match result m s with
  | inl e => Some e
  | inr _ => None
  end.

(** The primary key and the email are unique in the table. *)
Definition unique_keys (s : state) : Prop :=
  NoDup (map id (rows s)) /\ NoDup (map email (rows s)).

(** What identifies an account: its id and its email. *)
Definition ident (u : User) : Z * string := (id u, email u).

(** ** Facts about the table *)

Lemma filter_none (f : User -> bool) (us : list User) :
  (forall u, In u us -> f u = false) -> filter f us = [].
Proof.
  induction us as [|a us IH]; intros H; simpl; [reflexivity|].
  rewrite (H a (or_introl eq_refl)). apply IH.
  intros u Hu. apply H. now right.
Qed.

Lemma filter_nil_none (f : User -> bool) (us : list User) :
  filter f us = [] -> forall u, In u us -> f u = false.
Proof.
  induction us as [|a us IH]; simpl; intros H u Hu; [contradiction|].
  destruct (f a) eqn:Fa; [discriminate|].
  destruct Hu as [<-|Hu]; [assumption|now apply IH].
Qed.

Lemma matches_email (e : string) (u : User) :
  matches (ByEmail e) u = true <-> email u = e.
Proof. simpl. apply String.eqb_eq. Qed.

Lemma matches_email_false (e : string) (u : User) :
  matches (ByEmail e) u = false <-> email u <> e.
Proof. simpl. apply String.eqb_neq. Qed.

Lemma opt_is_true (t : string) (o : option string) :
  opt_is t o = true <-> o = Some t.
Proof.
  destruct o as [t'|]; simpl.
  - rewrite String.eqb_eq. split; congruence.
  - split; discriminate.
Qed.

Lemma opt_is_false (t : string) (o : option string) :
  opt_is t o = false <-> o <> Some t.
Proof.
  rewrite <- opt_is_true. destruct (opt_is t o); split; congruence.
Qed.

Lemma filter_email_unique (us : list User) (u : User) :
  NoDup (map email us) -> In u us ->
  filter (matches (ByEmail (email u))) us = [u].
Proof.
  induction us as [|a us IH]; simpl; intros ND Hu; [contradiction|].
  inversion ND as [|x l Hnotin ND']; subst.
  destruct Hu as [->|Hu].
  - rewrite String.eqb_refl. f_equal.
    apply filter_none. intros v Hv. apply matches_email_false.
    intros E. apply Hnotin. rewrite <- E. now apply in_map.
  - assert (email a <> email u) as Hne.
    { intros E. apply Hnotin. rewrite E. now apply in_map. }
    apply String.eqb_neq in Hne. rewrite Hne. now apply IH.
Qed.

Lemma filter_email_at_most_one (us : list User) (e : string) :
  NoDup (map email us) ->
  filter (matches (ByEmail e)) us = [] \/
  exists u, In u us /\ email u = e /\ filter (matches (ByEmail e)) us = [u].
Proof.
  intros ND.
  destruct (in_dec string_dec e (map email us)) as [Hin|Hout].
  - right. apply in_map_iff in Hin. destruct Hin as (u & Eu & Hu).
    exists u. repeat split; try assumption.
    rewrite <- Eu. now apply filter_email_unique.
  - left. apply filter_none. intros u Hu. apply matches_email_false.
    intros E. apply Hout. rewrite <- E. now apply in_map.
Qed.

Lemma apply_kwargs_id (kw : list assign) (u : User) :
  id (apply_kwargs kw u) = id u.
Proof.
  unfold apply_kwargs. revert u.
  induction kw as [|a kw IH]; intros u; simpl; [reflexivity|].
  rewrite IH. now destruct a.
Qed.

Lemma apply_kwargs_email (kw : list assign) (u : User) :
  email (apply_kwargs kw u) = email u.
Proof.
  unfold apply_kwargs. revert u.
  induction kw as [|a kw IH]; intros u; simpl; [reflexivity|].
  rewrite IH. now destruct a.
Qed.

Lemma existsb_has_id_false (uid : Z) (us : list User) :
  existsb (has_id uid) us = false <-> forall u, In u us -> id u <> uid.
Proof.
  split.
  - intros H u Hu E.
    assert (existsb (has_id uid) us = true) as T.
    { apply existsb_exists. exists u. split; [assumption|].
      unfold has_id. now apply Z.eqb_eq. }
    congruence.
  - intros H. destruct (existsb (has_id uid) us) eqn:T; [|reflexivity].
    apply existsb_exists in T. destruct T as (u & Hu & T).
    unfold has_id in T. apply Z.eqb_eq in T. now elim (H u Hu).
Qed.

Lemma update_rows_absent (uid : Z) (kw : list assign) (us : list User) :
  (forall u, In u us -> id u <> uid) -> update_rows uid kw us = us.
Proof.
  unfold update_rows. induction us as [|a us IH]; intros H; simpl.
  - reflexivity.
  - assert (has_id uid a = false) as ->.
    { unfold has_id. apply Z.eqb_neq. apply H. now left. }
    f_equal. apply IH. intros u Hu. apply H. now right.
Qed.

Lemma in_update_rows (uid : Z) (kw : list assign) (us : list User) (v : User) :
  In v (update_rows uid kw us) ->
  (exists u, In u us /\ id u = uid /\ v = apply_kwargs kw u) \/
  (In v us /\ id v <> uid).
Proof.
  unfold update_rows. intros H. apply in_map_iff in H.
  destruct H as (u & E & Hu). unfold has_id in E.
  destruct (Z.eqb_spec (id u) uid) as [Eid|Nid].
  - left. exists u. now repeat split.
  - right. subst v. now split.
Qed.

Lemma update_rows_emails (uid : Z) (kw : list assign) (us : list User) :
  map email (update_rows uid kw us) = map email us.
Proof.
  unfold update_rows. rewrite map_map. apply map_ext.
  intros u. destruct (has_id uid u); [apply apply_kwargs_email|reflexivity].
Qed.

Lemma update_rows_ids (uid : Z) (kw : list assign) (us : list User) :
  map id (update_rows uid kw us) = map id us.
Proof.
  unfold update_rows. rewrite map_map. apply map_ext.
  intros u. destruct (has_id uid u); [apply apply_kwargs_id|reflexivity].
Qed.

Lemma update_rows_cons (uid : Z) (kw : list assign) (a : User)
  (us : list User) :
  update_rows uid kw (a :: us) =
  (if has_id uid a then apply_kwargs kw a else a) :: update_rows uid kw us.
Proof. reflexivity. Qed.

Lemma filter_after_update (q : query) (uid : Z) (kw : list assign)
  (us : list User) (u : User) :
  NoDup (map id us) -> In u us -> id u = uid ->
  (forall v, In v us -> id v <> uid -> matches q v = false) ->
  matches q (apply_kwargs kw u) = true ->
  filter (matches q) (update_rows uid kw us) = [apply_kwargs kw u].
Proof.
  intros ND Hu Eu Hothers Hm.
  induction us as [|a us IH]; [contradiction|].
  inversion ND as [|x l Hnotin ND']; subst x l.
  rewrite update_rows_cons. cbn [filter]. destruct Hu as [->|Hu].
  - assert (has_id uid u = true) as ->
      by (unfold has_id; now apply Z.eqb_eq).
    rewrite Hm. f_equal.
    assert (forall v, In v us -> id v <> uid) as Hne.
    { intros v Hv E. apply Hnotin. rewrite Eu, <- E. now apply in_map. }
    rewrite update_rows_absent by assumption.
    apply filter_none. intros v Hv. apply Hothers; [now right|now apply Hne].
  - assert (id a <> uid) as Hne.
    { intros E. apply Hnotin. rewrite E, <- Eu. now apply in_map. }
    assert (has_id uid a = false) as ->
      by (unfold has_id; now apply Z.eqb_neq).
    rewrite (Hothers a (or_introl eq_refl) Hne).
    apply IH; try assumption.
    intros v Hv. apply Hothers. now right.
Qed.

Lemma filter_after_clear (q : query) (uid : Z) (kw : list assign)
  (us : list User) :
  (forall v, In v us -> id v <> uid -> matches q v = false) ->
  (forall v, matches q (apply_kwargs kw v) = false) ->
  filter (matches q) (update_rows uid kw us) = [].
Proof.
  intros Hothers Hcleared. apply filter_none. intros v Hv.
  apply in_update_rows in Hv.
  destruct Hv as [(w & _ & _ & ->)|[Hv Hne]]; [apply Hcleared|now apply Hothers].
Qed.

Lemma filter_email_update_rows (e : string) (uid : Z) (kw : list assign)
  (us : list User) :
  filter (matches (ByEmail e)) (update_rows uid kw us) =
  update_rows uid kw (filter (matches (ByEmail e)) us).
Proof.
  unfold update_rows. induction us as [|a us IH]; [reflexivity|].
  cbn [map filter].
  assert (matches (ByEmail e) (if has_id uid a then apply_kwargs kw a else a)
          = matches (ByEmail e) a) as ->.
  { destruct (has_id uid a); [|reflexivity].
    simpl. now rewrite apply_kwargs_email. }
  destruct (matches (ByEmail e) a); cbn [map]; now rewrite IH.
Qed.

Lemma others_after_update (q : query) (uid : Z) (kw : list assign)
  (us : list User) :
  (forall v, In v us -> matches q v = false) ->
  forall v, In v (update_rows uid kw us) -> id v <> uid -> matches q v = false.
Proof.
  intros Hfresh v Hv Hne. apply in_update_rows in Hv.
  destruct Hv as [(w & _ & E & ->)|[Hv _]]; [|now apply Hfresh].
  rewrite apply_kwargs_id in Hne. contradiction.
Qed.

Lemma next_id_above (us : list User) (u : User) :
  In u us -> id u < next_id us.
Proof.
  unfold next_id. induction us as [|a us IH]; [contradiction|].
  cbn [map fold_right]. intros [->|Hu]; [lia|]. specialize (IH Hu). lia.
Qed.

(** ** How the store answers *)

Lemma find_user_by_found (q : query) (s : state) (u : User) :
  filter (matches q) (rows s) = [u] ->
  find_user_by q s = (inr u, logged (FindUserBy q) s).
Proof.
  intros H. unfold find_user_by, bind, record_call. simpl. now rewrite H.
Qed.

Lemma find_user_by_none (q : query) (s : state) :
  filter (matches q) (rows s) = [] ->
  find_user_by q s = (inl NoResultFound, logged (FindUserBy q) s).
Proof.
  intros H. unfold find_user_by, bind, record_call. simpl. now rewrite H.
Qed.

Lemma find_user_by_inv (q : query) (s : state) (u : User) (s' : state) :
  find_user_by q s = (inr u, s') ->
  filter (matches q) (rows s) = [u] /\ s' = logged (FindUserBy q) s.
Proof.
  unfold find_user_by, bind, record_call. simpl.
  destruct (filter (matches q) (rows s)) as [|a [|b l]]; intros H;
    inversion H; subst; now split.
Qed.

Lemma find_user_by_raises (q : query) (s : state) (e : exn) (s' : state) :
  find_user_by q s = (inl e, s') ->
  e = NoResultFound /\ s' = logged (FindUserBy q) s /\
  forall w, filter (matches q) (rows s) <> [w].
Proof.
  unfold find_user_by, bind, record_call. simpl.
  destruct (filter (matches q) (rows s)) as [|a [|b l]]; intros H;
    inversion H; subst; repeat split; intros w; discriminate.
Qed.

(** Unfold one call down to the table it reads and writes. *)
Ltac run_py :=
  unfold result, exec, attempt;
  unfold find_user_by, add_user, update_user, _hash_password, _generate_uuid,
    unknown_id_error;
  unfold record_call, draw;
  unfold bind, ret, raise, logged, set_rows; simpl.

Lemma update_user_known (uid : Z) (kw : list assign) (s : state) (u : User) :
  In u (rows s) -> id u = uid ->
  update_user uid kw s =
    (inr tt, mkState (update_rows uid kw (rows s))
                     (calls s ++ [UpdateUser uid kw]) (draws s)).
Proof.
  intros Hu E. run_py.
  assert (existsb (has_id uid) (rows s) = true) as ->; [|reflexivity].
  apply existsb_exists. exists u. split; [assumption|].
  unfold has_id. now apply Z.eqb_eq.
Qed.

Lemma get_user_found (sid : string) (s : state) (u : User) :
  filter (matches (BySessionId sid)) (rows s) = [u] ->
  get_user_from_session_id (Some sid) s =
    (inr (Some u), logged (FindUserBy (BySessionId sid)) s).
Proof.
  intros H. unfold get_user_from_session_id, bind, attempt.
  now rewrite (find_user_by_found _ _ u).
Qed.

Lemma get_user_none (sid : string) (s : state) :
  filter (matches (BySessionId sid)) (rows s) = [] ->
  get_user_from_session_id (Some sid) s =
    (inr None, logged (FindUserBy (BySessionId sid)) s).
Proof.
  intros H. unfold get_user_from_session_id, bind, attempt.
  now rewrite find_user_by_none.
Qed.

Lemma destroy_session_run (s : state) (user_id : Z) :
  result (destroy_session user_id) s = inr tt /\
  rows (exec (destroy_session user_id) s) =
    update_rows user_id [SetSessionId None] (rows s).
Proof.
  unfold destroy_session. run_py.
  destruct (existsb (has_id user_id) (rows s)) eqn:X; simpl.
  - now split.
  - split; [reflexivity|]. symmetry. apply update_rows_absent.
    now apply existsb_has_id_false.
Qed.

(** ** Login, sessions and logout *)

(** C7.  [valid_login] on an email that no user has returns [False] and
    raises nothing; on the email of an existing user it returns exactly what
    [bcrypt.checkpw] says of the password against the stored
    [hashed_password].  Either way only one lookup reaches the store. *)
Theorem valid_login_spec (s : state) (e p : string) :
  ((forall u, In u (rows s) -> email u <> e) ->
   valid_login e p s = (inr false, logged (FindUserBy (ByEmail e)) s)) /\
  (forall u, NoDup (map email (rows s)) -> In u (rows s) -> email u = e ->
   valid_login e p s =
     (inr (checkpw (encode_utf8 p) (hashed_password u)),
      logged (FindUserBy (ByEmail e)) s)).
Proof.
  split.
  - intros H. unfold valid_login, bind, attempt.
    rewrite find_user_by_none; [reflexivity|].
    apply filter_none. intros u Hu. apply matches_email_false. now apply H.
  - intros u ND Hu E. subst e. unfold valid_login, bind, attempt.
    rewrite (find_user_by_found _ _ u); [reflexivity|].
    now apply filter_email_unique.
Qed.

(** C8.  [create_session] on an email that no user has returns [None] and
    updates nothing; on the email of an existing user it draws a new uuid,
    stores it as the [session_id] of that user's row and returns it. *)
Theorem create_session_spec (s : state) (e : string) :
  ((forall u, In u (rows s) -> email u <> e) ->
   create_session e s = (inr None, logged (FindUserBy (ByEmail e)) s)) /\
  (forall u, NoDup (map email (rows s)) -> In u (rows s) -> email u = e ->
   let token := uuid4 (draws s) in
   let kw := [SetSessionId (Some token)] in
   create_session e s =
     (inr (Some token),
      mkState (update_rows (id u) kw (rows s))
              (calls s ++ [FindUserBy (ByEmail e); UpdateUser (id u) kw])
              (S (draws s))) /\
   In (apply_kwargs kw u) (update_rows (id u) kw (rows s)) /\
   session_id (apply_kwargs kw u) = Some token).
Proof.
  split.
  - intros H. unfold create_session, bind, attempt.
    rewrite find_user_by_none; [reflexivity|].
    apply filter_none. intros u Hu. apply matches_email_false. now apply H.
  - intros u ND Hu E token kw. subst e. repeat split.
    + unfold create_session, bind, attempt.
      rewrite (find_user_by_found _ _ u) by now apply filter_email_unique.
      run_py.
      assert (existsb (has_id (id u)) (rows s) = true) as ->.
      { apply existsb_exists. exists u. split; [assumption|].
        unfold has_id. apply Z.eqb_refl. }
      rewrite <- app_assoc. reflexivity.
    + unfold update_rows. apply in_map_iff. exists u. split; [|assumption].
      unfold has_id. now rewrite Z.eqb_refl.
Qed.

(** C5.  [destroy_session] returns [None] for every [user_id] and never
    raises; afterwards every row with that id has a null [session_id], and
    when no row has that id the table is unchanged. *)
Theorem destroy_session_spec (s : state) (user_id : Z) :
  result (destroy_session user_id) s = inr tt /\
  rows (exec (destroy_session user_id) s) =
    update_rows user_id [SetSessionId None] (rows s) /\
  (forall u, In u (rows (exec (destroy_session user_id) s)) ->
             id u = user_id -> session_id u = None) /\
  ((forall u, In u (rows s) -> id u <> user_id) ->
   rows (exec (destroy_session user_id) s) = rows s).
Proof.
  destruct (destroy_session_run s user_id) as [R U].
  repeat split; try assumption.
  - rewrite U. intros u Hu E. apply in_update_rows in Hu.
    destruct Hu as [(w & _ & _ & ->)|[_ N]]; [reflexivity|contradiction].
  - intros H. rewrite U. now apply update_rows_absent.
Qed.

(** C4, as the code has it.  Only the absent token ([None]) is answered
    without touching the store.  Every string, the empty one included, is
    looked up by [session_id], once, and the call never raises: it returns
    the user when exactly one row holds that token, and [None] when no single
    row does. *)
Theorem get_user_from_session_id_guard (s : state) :
  get_user_from_session_id None s = (inr None, s) /\
  (forall sid, exec (get_user_from_session_id (Some sid)) s =
               logged (FindUserBy (BySessionId sid)) s) /\
  (forall sid, exists r, result (get_user_from_session_id (Some sid)) s = inr r) /\
  (forall sid u, filter (matches (BySessionId sid)) (rows s) = [u] ->
     result (get_user_from_session_id (Some sid)) s = inr (Some u)) /\
  (forall sid, (forall u, filter (matches (BySessionId sid)) (rows s) <> [u]) ->
     result (get_user_from_session_id (Some sid)) s = inr None) /\
  (forall sid, result (get_user_from_session_id (Some sid)) s = inr None ->
     forall u, filter (matches (BySessionId sid)) (rows s) <> [u]).
Proof.
  split; [reflexivity|].
  repeat split; intros sid; unfold get_user_from_session_id; run_py.
  - now destruct (filter (matches (BySessionId sid)) (rows s)) as [|a [|b l]].
  - destruct (filter (matches (BySessionId sid)) (rows s)) as [|a [|b l]];
      simpl; eauto.
  - intros u ->. reflexivity.
  - intros H.
    destruct (filter (matches (BySessionId sid)) (rows s)) as [|a [|b l]];
      [reflexivity| |reflexivity].
    now contradiction (H a).
  - destruct (filter (matches (BySessionId sid)) (rows s)) as [|a [|b l]];
      simpl; intros H u; discriminate.
Qed.

(** C9.  [get_reset_password_token] on an email that no user has raises
    (the store's "not found" is surfaced, as a [ValueError]); on the email of
    an existing user it draws a new uuid, stores it as the [reset_token] of
    that user's row and returns it. *)
Theorem get_reset_password_token_spec (s : state) (e : string) :
  ((forall u, In u (rows s) -> email u <> e) ->
   get_reset_password_token e s =
     (inl ValueError, logged (FindUserBy (ByEmail e)) s)) /\
  (forall u, NoDup (map email (rows s)) -> In u (rows s) -> email u = e ->
   let token := uuid4 (draws s) in
   let kw := [SetResetToken (Some token)] in
   get_reset_password_token e s =
     (inr token,
      mkState (update_rows (id u) kw (rows s))
              (calls s ++ [FindUserBy (ByEmail e); UpdateUser (id u) kw])
              (S (draws s))) /\
   In (apply_kwargs kw u) (update_rows (id u) kw (rows s)) /\
   reset_token (apply_kwargs kw u) = Some token).
Proof.
  split.
  - intros H. unfold get_reset_password_token, bind, attempt.
    rewrite find_user_by_none; [reflexivity|].
    apply filter_none. intros u Hu. apply matches_email_false. now apply H.
  - intros u ND Hu E token kw. subst e. repeat split.
    + unfold get_reset_password_token, bind, attempt.
      rewrite (find_user_by_found _ _ u) by now apply filter_email_unique.
      run_py.
      assert (existsb (has_id (id u)) (rows s) = true) as ->.
      { apply existsb_exists. exists u. split; [assumption|].
        unfold has_id. apply Z.eqb_refl. }
      rewrite <- app_assoc. reflexivity.
    + unfold update_rows. apply in_map_iff. exists u. split; [|assumption].
      unfold has_id. now rewrite Z.eqb_refl.
Qed.

(** ** Registration *)

Lemma register_user_inv (s : state) (e p : string) (u : User) (s1 : state) :
  register_user e p s = (inr u, s1) ->
  filter (matches (ByEmail e)) (rows s) <> [u] /\
  u = mkUser (next_id (rows s)) e
             (hashpw (encode_utf8 p) (gensalt (draws s))) None None /\
  s1 = mkState (rows s ++ [u])
               (calls s ++ [FindUserBy (ByEmail e); AddUser e])
               (S (draws s)) /\
  (forall w, filter (matches (ByEmail e)) (rows s) <> [w]).
Proof.
  unfold register_user, bind, attempt.
  destruct (find_user_by (ByEmail e) s) as [[ex|w] s'] eqn:F.
  - apply find_user_by_raises in F. destruct F as (-> & -> & Hno).
    run_py. intros H. inversion H; subst. clear H.
    rewrite <- app_assoc.
    repeat split; try reflexivity; auto.
  - unfold raise. discriminate.
Qed.

(** C1.  After a successful [register_user e p1], a second
    [register_user e p2] raises [ValueError] ("already exists"); it hashes
    nothing and leaves the table as it was, so the one row with that email is
    still the first user's, with the digest of [p1]. *)
Theorem register_user_twice (s : state) (e p1 p2 : string) (u : User)
  (s1 : state) :
  NoDup (map email (rows s)) ->
  register_user e p1 s = (inr u, s1) ->
  register_user e p2 s1 = (inl ValueError, logged (FindUserBy (ByEmail e)) s1) /\
  filter (matches (ByEmail e)) (rows (exec (register_user e p2) s1)) = [u] /\
  rows (exec (register_user e p2) s1) = rows s1 /\
  hashed_password u = hashpw (encode_utf8 p1) (gensalt (draws s)).
Proof.
  intros ND H. apply register_user_inv in H.
  destruct H as (_ & Eu & Es1 & Hno).
  assert (filter (matches (ByEmail e)) (rows s1) = [u]) as F1.
  { destruct (filter_email_at_most_one (rows s) e ND) as [Hnil|(w & _ & _ & Hw)].
    - rewrite Es1. cbn [rows]. rewrite filter_app, Hnil. cbn [filter app].
      assert (matches (ByEmail e) u = true) as ->; [|reflexivity].
      apply matches_email. now rewrite Eu.
    - now elim (Hno w). }
  assert (register_user e p2 s1 =
            (inl ValueError, logged (FindUserBy (ByEmail e)) s1)) as R.
  { unfold register_user, bind, attempt.
    now rewrite (find_user_by_found _ _ u F1). }
  unfold exec. rewrite R. cbn [snd logged rows].
  repeat split; try assumption. now rewrite Eu.
Qed.

(** Registration keeps emails and ids unique, so the hypotheses above hold
    in every state reached from the empty table. *)
Lemma register_user_keeps_unique (s : state) (e p : string) (r : exn + User)
  (s1 : state) :
  NoDup (map email (rows s)) -> NoDup (map id (rows s)) ->
  register_user e p s = (r, s1) ->
  NoDup (map email (rows s1)) /\ NoDup (map id (rows s1)).
Proof.
  intros NDe NDi H. destruct r as [ex|u].
  - assert (rows s1 = rows s) as ->; [|now split].
    revert H. unfold register_user, bind, attempt.
    destruct (find_user_by (ByEmail e) s) as [[ex'|w] s'] eqn:F.
    + apply find_user_by_raises in F. destruct F as (-> & -> & _).
      run_py. discriminate.
    + apply find_user_by_inv in F. destruct F as [_ ->].
      unfold raise. intros H. now inversion H.
  - apply register_user_inv in H. destruct H as (_ & Eu & -> & Hno).
    cbn [rows]. rewrite !map_app. cbn [map]. split.
    + apply NoDup_app; [assumption|repeat constructor; intros []|].
      intros x Hx [<-|[]].
      apply in_map_iff in Hx. destruct Hx as (w & Ew & Hw).
      destruct (filter_email_at_most_one (rows s) e NDe)
        as [Hnil|(w' & _ & _ & Hw')]; [|now elim (Hno w')].
      pose proof (filter_nil_none _ _ Hnil w Hw) as Fw.
      apply matches_email_false in Fw. apply Fw. rewrite Ew, Eu. reflexivity.
    + apply NoDup_app; [assumption|repeat constructor; intros []|].
      intros x Hx [<-|[]].
      apply in_map_iff in Hx. destruct Hx as (w & Ew & Hw).
      pose proof (next_id_above _ _ Hw) as Lt. rewrite Ew, Eu in Lt.
      cbn [id] in Lt. lia.
Qed.

(** ** Session round trip *)

(** C3.  If [create_session e] returns token [T] (and [T] is not already some
    row's [session_id]), then [get_user_from_session_id T] returns that
    user's row, and after [destroy_session] on that user's id the same token
    finds no user. *)
Theorem session_round_trip (s : state) (e T : string) (s1 : state) :
  NoDup (map id (rows s)) ->
  (forall v, In v (rows s) -> session_id v <> Some (uuid4 (draws s))) ->
  create_session e s = (inr (Some T), s1) ->
  exists u, In u (rows s) /\ email u = e /\
    let u' := mkUser (id u) (email u) (hashed_password u) (Some T)
                     (reset_token u) in
    result (get_user_from_session_id (Some T)) s1 = inr (Some u') /\
    let s2 := exec (get_user_from_session_id (Some T)) s1 in
    result (destroy_session (id u')) s2 = inr tt /\
    let s3 := exec (destroy_session (id u')) s2 in
    result (get_user_from_session_id (Some T)) s3 = inr None.
Proof.
  intros ND Hfresh H.
  unfold create_session, bind, attempt in H.
  destruct (find_user_by (ByEmail e) s) as [[ex|u] s'] eqn:F.
  { apply find_user_by_raises in F. destruct F as (-> & -> & _). discriminate. }
  apply find_user_by_inv in F. destruct F as [Fu ->].
  assert (In u (rows s) /\ email u = e) as [Hu Eu].
  { assert (In u (filter (matches (ByEmail e)) (rows s))) as I
      by (rewrite Fu; now left).
    apply filter_In in I. destruct I as [I M]. split; [assumption|].
    now apply matches_email. }
  set (kw := [SetSessionId (Some (uuid4 (draws s)))]).
  assert (T = uuid4 (draws s) /\ rows s1 = update_rows (id u) kw (rows s))
    as [-> R1].
  { revert H. unfold _generate_uuid, bind, draw, ret. cbn [logged].
    rewrite (update_user_known _ _ _ u) by (cbn [rows]; auto).
    intros H. inversion H; subst. now split. }
  exists u. split; [assumption|]. split; [assumption|]. cbn zeta.
  assert (forall v, In v (rows s) ->
                    matches (BySessionId (uuid4 (draws s))) v = false) as Hf.
  { intros v Hv. simpl. apply opt_is_false. now apply Hfresh. }
  assert (filter (matches (BySessionId (uuid4 (draws s)))) (rows s1)
          = [apply_kwargs kw u]) as F1.
  { rewrite R1. apply filter_after_update; auto.
    simpl. apply String.eqb_refl. }
  cbn [id].
  unfold result at 1. unfold exec at 1 3.
  rewrite (get_user_found _ _ _ F1). cbn [fst snd].
  split; [reflexivity|].
  destruct (destroy_session_run
              (logged (FindUserBy (BySessionId (uuid4 (draws s)))) s1) (id u))
    as [RD UD].
  split; [assumption|].
  unfold result. rewrite get_user_none; [reflexivity|].
  rewrite UD. cbn [logged rows]. apply filter_after_clear; [|reflexivity].
  rewrite R1. now apply others_after_update.
Qed.

(** ** Password reset *)

Lemma update_password_found (T pw : string) (s : state) (u : User) :
  filter (matches (ByResetToken T)) (rows s) = [u] ->
  let kw := [SetHashedPassword (hashpw (encode_utf8 pw) (gensalt (draws s)));
             SetResetToken None] in
  update_password T pw s =
    (inr tt,
     mkState (update_rows (id u) kw (rows s))
             (calls s ++ [FindUserBy (ByResetToken T); UpdateUser (id u) kw])
             (S (draws s))).
Proof.
  intros F kw.
  assert (In u (rows s)) as Hu.
  { assert (In u (filter (matches (ByResetToken T)) (rows s))) as I
      by (rewrite F; now left).
    now apply filter_In in I. }
  unfold update_password, bind, attempt.
  rewrite (find_user_by_found _ _ u F).
  unfold _hash_password, bind, draw, ret. cbn [logged rows calls draws].
  rewrite (update_user_known _ _ _ u) by (cbn [rows]; auto).
  cbn [rows calls draws]. now rewrite <- app_assoc.
Qed.

Lemma update_password_unknown (T pw : string) (s : state) :
  filter (matches (ByResetToken T)) (rows s) = [] ->
  update_password T pw s =
    (inl ValueError, logged (FindUserBy (ByResetToken T)) s).
Proof.
  intros F. unfold update_password, bind, attempt.
  now rewrite find_user_by_none.
Qed.

(** C2.  If [get_reset_password_token e] returns token [T] (and [T] is not
    already some row's [reset_token]), then [update_password T newpw]
    succeeds, leaving that user's row with the digest of [newpw] and a null
    [reset_token]; [valid_login e newpw] is then [True]; and any further
    [update_password T x] raises [ValueError]: the token is single-use. *)
Theorem password_reset_flow (s : state) (e T newpw : string) (s1 : state) :
  (forall pw salt, checkpw pw (hashpw pw salt) = true) ->
  NoDup (map id (rows s)) ->
  (forall v, In v (rows s) -> reset_token v <> Some (uuid4 (draws s))) ->
  get_reset_password_token e s = (inr T, s1) ->
  exists u, In u (rows s) /\ email u = e /\
    result (update_password T newpw) s1 = inr tt /\
    let s2 := exec (update_password T newpw) s1 in
    let u2 := mkUser (id u) (email u)
                     (hashpw (encode_utf8 newpw) (gensalt (draws s1)))
                     (session_id u) None in
    filter (matches (ByEmail e)) (rows s2) = [u2] /\
    result (valid_login e newpw) s2 = inr true /\
    let s3 := exec (valid_login e newpw) s2 in
    forall x, result (update_password T x) s3 = inl ValueError.
Proof.
  intros Hcheck ND Hfresh H.
  unfold get_reset_password_token, bind, attempt in H.
  destruct (find_user_by (ByEmail e) s) as [[ex|u] s'] eqn:F.
  { apply find_user_by_raises in F. destruct F as (-> & -> & _).
    unfold raise in H. discriminate. }
  apply find_user_by_inv in F. destruct F as [Fu ->].
  assert (In u (rows s) /\ email u = e) as [Hu Eu].
  { assert (In u (filter (matches (ByEmail e)) (rows s))) as I
      by (rewrite Fu; now left).
    apply filter_In in I. destruct I as [I M]. split; [assumption|].
    now apply matches_email. }
  set (kw1 := [SetResetToken (Some (uuid4 (draws s)))]).
  assert (T = uuid4 (draws s) /\ rows s1 = update_rows (id u) kw1 (rows s))
    as [-> R1].
  { revert H. unfold _generate_uuid, bind, draw, ret. cbn [logged].
    rewrite (update_user_known _ _ _ u) by (cbn [rows]; auto).
    intros H. inversion H; subst. now split. }
  clear H. set (T := uuid4 (draws s)) in *.
  exists u. split; [assumption|]. split; [assumption|].
  assert (forall v, In v (rows s) -> matches (ByResetToken T) v = false) as Hf.
  { intros v Hv. simpl. apply opt_is_false. now apply Hfresh. }
  assert (filter (matches (ByResetToken T)) (rows s1) = [apply_kwargs kw1 u])
    as F1.
  { rewrite R1. apply filter_after_update; auto.
    simpl. apply String.eqb_refl. }
  pose proof (update_password_found T newpw s1 _ F1) as U2. cbn zeta in U2.
  rewrite apply_kwargs_id in U2.
  set (kw2 := [SetHashedPassword
                 (hashpw (encode_utf8 newpw) (gensalt (draws s1)));
               SetResetToken None]) in *.
  set (s2 := mkState (update_rows (id u) kw2 (rows s1))
                     (calls s1 ++
                        [FindUserBy (ByResetToken T); UpdateUser (id u) kw2])
                     (S (draws s1))) in *.
  assert (exec (update_password T newpw) s1 = s2) as E2
    by (unfold exec; now rewrite U2).
  cbn zeta. rewrite !E2.
  split; [unfold result; now rewrite U2|].
  assert (filter (matches (ByEmail e)) (rows s2)
          = [apply_kwargs kw2 (apply_kwargs kw1 u)]) as F2.
  { subst s2. cbn [rows]. rewrite R1, !filter_email_update_rows, Fu.
    unfold update_rows, has_id. cbn [map]. rewrite Z.eqb_refl.
    now rewrite apply_kwargs_id, Z.eqb_refl. }
  split; [exact F2|].
  assert (valid_login e newpw s2 =
            (inr true, logged (FindUserBy (ByEmail e)) s2)) as L.
  { unfold valid_login, bind, attempt.
    rewrite (find_user_by_found _ _ _ F2). unfold ret.
    cbn [apply_kwargs fold_left apply_assign hashed_password kw1 kw2].
    now rewrite Hcheck. }
  assert (exec (valid_login e newpw) s2 = logged (FindUserBy (ByEmail e)) s2)
    as E3 by (unfold exec; now rewrite L).
  rewrite E3.
  split; [unfold result; now rewrite L|]. intros x.
  unfold result. rewrite update_password_unknown; [reflexivity|].
  cbn [logged rows]. subst s2. cbn [rows].
  apply filter_after_clear; [|reflexivity].
  rewrite R1. now apply others_after_update.
Qed.

(** ** Hashing *)

(** C6.  The digest of a password is a [bytes] and never compares equal to
    the password, a [str]; it verifies against the password; and two calls in
    a row, whose salts are two successive draws, give two different digests
    that both verify.  What is assumed of [bcrypt]: a digest verifies against
    the password it was made from, and it determines its salt. *)
Theorem hash_password_spec (s : state) (p : string) :
  (forall pw salt, checkpw pw (hashpw pw salt) = true) ->
  (forall pw salt1 salt2, hashpw pw salt1 = hashpw pw salt2 -> salt1 = salt2) ->
  gensalt (draws s) <> gensalt (S (draws s)) ->
  exists h1 h2 s1 s2,
    _hash_password p s = (inr h1, s1) /\
    _hash_password p s1 = (inr h2, s2) /\
    py_eq (PyBytes h1) (PyStr p) = false /\
    py_eq (PyBytes h2) (PyStr p) = false /\
    checkpw (encode_utf8 p) h1 = true /\
    checkpw (encode_utf8 p) h2 = true /\
    h1 <> h2.
Proof.
  intros Hcheck Hsalt Hdraws.
  exists (hashpw (encode_utf8 p) (gensalt (draws s))),
         (hashpw (encode_utf8 p) (gensalt (S (draws s)))),
         (mkState (rows s) (calls s) (S (draws s))),
         (mkState (rows s) (calls s) (S (S (draws s)))).
  repeat split; try reflexivity; try apply Hcheck.
  intros E. apply Hdraws. exact (Hsalt _ _ _ E).
Qed.

(** ** What every call keeps *)

Lemma update_rows_nil_kw (uid : Z) (us : list User) :
  update_rows uid [] us = us.
Proof.
  unfold update_rows. rewrite <- (map_id us) at 2. apply map_ext.
  intros u. now destruct (has_id uid u).
Qed.

Lemma update_rows_idents (uid : Z) (kw : list assign) (us : list User) :
  map ident (update_rows uid kw us) = map ident us.
Proof.
  unfold update_rows. rewrite map_map. apply map_ext. intros u.
  destruct (has_id uid u); [|reflexivity].
  unfold ident. now rewrite apply_kwargs_id, apply_kwargs_email.
Qed.

Lemma found_in_rows (q : query) (us : list User) (u : User) :
  filter (matches q) us = [u] -> In u us /\ matches q u = true.
Proof.
  intros F. assert (In u (filter (matches q) us)) as I by (rewrite F; now left).
  now apply filter_In in I.
Qed.

Lemma register_user_raises (s : state) (e p : string) (ex : exn) (s1 : state) :
  register_user e p s = (inl ex, s1) ->
  ex = ValueError /\ s1 = logged (FindUserBy (ByEmail e)) s.
Proof.
  unfold register_user, bind, attempt.
  destruct (find_user_by (ByEmail e) s) as [[ex'|w] s'] eqn:F.
  - apply find_user_by_raises in F. destruct F as (-> & -> & _).
    run_py. discriminate.
  - apply find_user_by_inv in F. destruct F as [_ ->].
    unfold raise. intros H. inversion H. now split.
Qed.

Lemma create_session_inv (s : state) (e T : string) (s1 : state) :
  create_session e s = (inr (Some T), s1) ->
  exists u, filter (matches (ByEmail e)) (rows s) = [u] /\
    T = uuid4 (draws s) /\
    s1 = mkState (update_rows (id u) [SetSessionId (Some T)] (rows s))
                 (calls s ++ [FindUserBy (ByEmail e);
                              UpdateUser (id u) [SetSessionId (Some T)]])
                 (S (draws s)).
Proof.
  unfold create_session, bind, attempt.
  destruct (find_user_by (ByEmail e) s) as [[ex|u] s'] eqn:F.
  { apply find_user_by_raises in F. destruct F as (-> & -> & _). discriminate. }
  apply find_user_by_inv in F. destruct F as [Fu ->].
  destruct (found_in_rows _ _ _ Fu) as [Hu _].
  unfold _generate_uuid, bind, draw, ret. cbn [logged].
  rewrite (update_user_known _ _ _ u) by (cbn [rows]; auto).
  cbn [rows calls draws]. intros H. inversion H; subst.
  exists u. rewrite <- app_assoc. now repeat split.
Qed.

Lemma create_session_none (s : state) (e : string) (s1 : state) :
  create_session e s = (inr None, s1) -> s1 = logged (FindUserBy (ByEmail e)) s.
Proof.
  unfold create_session, bind, attempt.
  destruct (find_user_by (ByEmail e) s) as [[ex|u] s'] eqn:F.
  { apply find_user_by_raises in F. destruct F as (-> & -> & _).
    unfold ret. intros H. now inversion H. }
  apply find_user_by_inv in F. destruct F as [Fu ->].
  destruct (found_in_rows _ _ _ Fu) as [Hu _].
  unfold _generate_uuid, bind, draw, ret. cbn [logged].
  rewrite (update_user_known _ _ _ u) by (cbn [rows]; auto).
  discriminate.
Qed.

Lemma create_session_returns (s : state) (e : string) :
  exists r, result (create_session e) s = inr r.
Proof.
  unfold result, create_session, bind, attempt.
  destruct (find_user_by (ByEmail e) s) as [[ex|u] s'] eqn:F.
  { apply find_user_by_raises in F. destruct F as (-> & -> & _).
    unfold ret. simpl. eauto. }
  apply find_user_by_inv in F. destruct F as [Fu ->].
  destruct (found_in_rows _ _ _ Fu) as [Hu _].
  unfold _generate_uuid, bind, draw, ret. cbn [logged].
  rewrite (update_user_known _ _ _ u) by (cbn [rows]; auto).
  simpl. eauto.
Qed.

Lemma get_reset_password_token_inv (s : state) (e T : string) (s1 : state) :
  get_reset_password_token e s = (inr T, s1) ->
  exists u, filter (matches (ByEmail e)) (rows s) = [u] /\
    T = uuid4 (draws s) /\
    s1 = mkState (update_rows (id u) [SetResetToken (Some T)] (rows s))
                 (calls s ++ [FindUserBy (ByEmail e);
                              UpdateUser (id u) [SetResetToken (Some T)]])
                 (S (draws s)).
Proof.
  unfold get_reset_password_token, bind, attempt.
  destruct (find_user_by (ByEmail e) s) as [[ex|u] s'] eqn:F.
  { apply find_user_by_raises in F. destruct F as (-> & -> & _).
    unfold raise. discriminate. }
  apply find_user_by_inv in F. destruct F as [Fu ->].
  destruct (found_in_rows _ _ _ Fu) as [Hu _].
  unfold _generate_uuid, bind, draw, ret. cbn [logged].
  rewrite (update_user_known _ _ _ u) by (cbn [rows]; auto).
  cbn [rows calls draws]. intros H. inversion H; subst.
  exists u. rewrite <- app_assoc. now repeat split.
Qed.

Lemma get_reset_password_token_raises (s : state) (e : string) (ex : exn)
  (s1 : state) :
  get_reset_password_token e s = (inl ex, s1) ->
  ex = ValueError /\ s1 = logged (FindUserBy (ByEmail e)) s.
Proof.
  unfold get_reset_password_token, bind, attempt.
  destruct (find_user_by (ByEmail e) s) as [[ex'|u] s'] eqn:F.
  { apply find_user_by_raises in F. destruct F as (-> & -> & _).
    unfold raise. intros H. inversion H. now split. }
  apply find_user_by_inv in F. destruct F as [Fu ->].
  destruct (found_in_rows _ _ _ Fu) as [Hu _].
  unfold _generate_uuid, bind, draw, ret. cbn [logged].
  rewrite (update_user_known _ _ _ u) by (cbn [rows]; auto).
  discriminate.
Qed.

Lemma update_password_cases (s : state) (t p : string) :
  (update_password t p s = (inl ValueError, logged (FindUserBy (ByResetToken t)) s)
   /\ forall w, filter (matches (ByResetToken t)) (rows s) <> [w]) \/
  (exists u, filter (matches (ByResetToken t)) (rows s) = [u] /\
     let kw := [SetHashedPassword (hashpw (encode_utf8 p) (gensalt (draws s)));
                SetResetToken None] in
     update_password t p s =
       (inr tt,
        mkState (update_rows (id u) kw (rows s))
                (calls s ++ [FindUserBy (ByResetToken t); UpdateUser (id u) kw])
                (S (draws s)))).
Proof.
  destruct (find_user_by (ByResetToken t) s) as [[ex|u] s'] eqn:F.
  - left. pose proof F as F'. apply find_user_by_raises in F'.
    destruct F' as (-> & -> & Hno). split; [|assumption].
    unfold update_password, bind, attempt. now rewrite F.
  - right. apply find_user_by_inv in F. destruct F as [Fu _].
    exists u. split; [assumption|]. now apply update_password_found.
Qed.

(** The table a call leaves: the old rows with one id's columns updated, or,
    for a registration that succeeded, the old rows and the new user. *)
Lemma perform_rows (c : call) (s : state) :
  (exists uid kw, rows (perform c s) = update_rows uid kw (rows s)) \/
  (exists e p u, c = RegisterUser e p /\
     register_user e p s = (inr u, perform c s) /\
     rows (perform c s) = rows s ++ [u]).
Proof.
  assert (forall s', rows s' = rows s ->
            exists uid kw, rows s' = update_rows uid kw (rows s)) as same.
  { intros s' E. exists 0, []. now rewrite update_rows_nil_kw. }
  destruct c as [e p|e p|e|sid|uid|e|t p]; cbn [perform]; unfold exec.
  - destruct (register_user e p s) as [[ex|u] s1] eqn:E; cbn [snd].
    + left. apply register_user_raises in E. destruct E as [_ ->].
      now apply same.
    + right. exists e, p, u. pose proof E as E'. apply register_user_inv in E'.
      destruct E' as (_ & _ & -> & _). now repeat split.
  - left. apply same. unfold valid_login. run_py.
    now destruct (filter (matches (ByEmail e)) (rows s)) as [|a [|b l]].
  - left. destruct (create_session e s) as [[ex|[T|]] s1] eqn:E; cbn [snd].
    + destruct (create_session_returns s e) as [r R].
      unfold result in R. rewrite E in R. discriminate.
    + apply create_session_inv in E. destruct E as (u & _ & _ & ->).
      cbn [rows]. eauto.
    + apply create_session_none in E. subst s1. now apply same.
  - left. apply same. destruct sid as [t|]; [|reflexivity].
    unfold get_user_from_session_id. run_py.
    now destruct (filter (matches (BySessionId t)) (rows s)) as [|a [|b l]].
  - left. destruct (destroy_session_run s uid) as [_ U]. unfold exec in U. eauto.
  - left. destruct (get_reset_password_token e s) as [[ex|T] s1] eqn:E;
      cbn [snd].
    + apply get_reset_password_token_raises in E. destruct E as [_ ->].
      now apply same.
    + apply get_reset_password_token_inv in E. destruct E as (u & _ & _ & ->).
      cbn [rows]. eauto.
  - left. destruct (update_password_cases s t p) as [[E _]|(u & _ & E)].
    + rewrite E. cbn [snd]. now apply same.
    + cbn zeta in E. rewrite E. cbn [snd rows]. eauto.
Qed.

Lemma perform_keeps_unique (c : call) (s : state) :
  unique_keys s -> unique_keys (perform c s).
Proof.
  intros [NDi NDe]. unfold unique_keys.
  destruct (perform_rows c s) as [(uid & kw & R)|(e & p & u & _ & E & _)].
  - rewrite R, update_rows_ids, update_rows_emails. now split.
  - destruct (register_user_keeps_unique _ _ _ _ _ NDe NDi E). now split.
Qed.

(** X3.  After any sequence of calls to the methods of [Auth] on a new,
    empty table, no two rows share an id and no two rows share an email. *)
Theorem run_unique_keys (cs : list call) : unique_keys (run cs).
Proof.
  unfold run.
  assert (forall s, unique_keys s ->
            unique_keys (fold_left (fun s c => perform c s) cs s)) as G.
  { induction cs as [|c cs IH]; intros s U; [assumption|].
    cbn [fold_left]. apply IH. now apply perform_keeps_unique. }
  apply G. split; constructor.
Qed.

(** X4.  No call deletes an account or changes its id or email: the ids and
    emails after a call are those before it, in the same order, followed by
    the new account when the call is a registration that succeeded. *)
Theorem accounts_are_never_deleted (c : call) (s : state) :
  exists tail,
    map ident (rows (perform c s)) = map ident (rows s) ++ tail /\
    (tail = [] \/
     exists e p, c = RegisterUser e p /\ tail = [(next_id (rows s), e)]).
Proof.
  destruct (perform_rows c s) as [(uid & kw & R)|(e & p & u & -> & E & R)].
  - exists []. rewrite R, update_rows_idents, app_nil_r. auto.
  - exists [(next_id (rows s), e)]. split; [|right; eauto].
    rewrite R, map_app. cbn [map]. apply register_user_inv in E.
    destruct E as (_ & -> & _). reflexivity.
Qed.

(** X9.  [create_session] never raises, whatever the table holds: it returns
    a token or [None].  When it returns [None] no token was drawn and nothing
    was written; only the lookup by email was made. *)
Theorem create_session_never_raises (s : state) :
  (forall e, exists r, result (create_session e) s = inr r) /\
  (forall e, result (create_session e) s = inr None ->
     exec (create_session e) s = logged (FindUserBy (ByEmail e)) s) /\
  (forall e T, result (create_session e) s = inr (Some T) ->
     T = uuid4 (draws s) /\
     exists u, filter (matches (ByEmail e)) (rows s) = [u]).
Proof.
  split; [|split].
  - intros e. apply create_session_returns.
  - intros e. unfold result, exec.
    destruct (create_session e s) as [r s1] eqn:E. cbn [fst snd].
    intros ->. now apply create_session_none in E.
  - intros e T. unfold result.
    destruct (create_session e s) as [r s1] eqn:E. cbn [fst].
    intros ->. apply create_session_inv in E.
    destruct E as (u & Fu & -> & _). split; [reflexivity|eauto].
Qed.

(** X10.  [get_reset_password_token] raises nothing but [ValueError]
    ([NoResultFound] never escapes it), and only when the lookup by email
    found no single user; a call that raises has drawn no token and written
    nothing. *)
Theorem reset_request_failure_changes_nothing (s : state) (e : string)
  (ex : exn) (s1 : state) :
  get_reset_password_token e s = (inl ex, s1) ->
  ex = ValueError /\
  s1 = logged (FindUserBy (ByEmail e)) s /\
  forall u, filter (matches (ByEmail e)) (rows s) <> [u].
Proof.
  intros H. pose proof H as H'. apply get_reset_password_token_raises in H'.
  destruct H' as [-> ->]. split; [reflexivity|]. split; [reflexivity|].
  intros u Fu.
  destruct (found_in_rows _ _ _ Fu) as [Hu _].
  revert H. unfold get_reset_password_token, bind, attempt.
  rewrite (find_user_by_found _ _ _ Fu).
  unfold _generate_uuid, bind, draw, ret. cbn [logged].
  rewrite (update_user_known _ _ _ u) by (cbn [rows]; auto).
  discriminate.
Qed.

(** ** How the calls compose *)

Lemma filter_both (f g : User -> bool) (us : list User) :
  filter (fun w => g w && f w) us = filter g (filter f us).
Proof.
  induction us as [|a us IH]; [reflexivity|]. cbn [filter].
  destruct (f a); cbn [filter]; [|now rewrite andb_false_r].
  rewrite andb_true_r. destruct (g a); now rewrite IH.
Qed.

Lemma filter_update_other (q : query) (uid : Z) (kw : list assign)
  (us : list User) (v : User) :
  filter (matches q) us = [v] -> id v <> uid ->
  (forall w, matches q (apply_kwargs kw w) = false) ->
  filter (matches q) (update_rows uid kw us) = [v].
Proof.
  intros F Hne Hclear.
  assert (filter (matches q) (update_rows uid kw us) =
          filter (fun w => negb (has_id uid w) && matches q w) us) as ->.
  { clear F. induction us as [|a us IH]; [reflexivity|].
    rewrite update_rows_cons. cbn [filter].
    destruct (has_id uid a); cbn [negb andb]; [now rewrite Hclear|].
    destruct (matches q a); now rewrite IH. }
  rewrite filter_both, F. cbn [filter].
  assert (has_id uid v = false) as -> by (unfold has_id; now apply Z.eqb_neq).
  reflexivity.
Qed.

Lemma filter_update_commutes (q : query) (uid : Z) (kw : list assign)
  (us : list User) :
  (forall w, matches q (apply_kwargs kw w) = matches q w) ->
  filter (matches q) (update_rows uid kw us) =
  update_rows uid kw (filter (matches q) us).
Proof.
  intros Hsame. induction us as [|a us IH]; [reflexivity|].
  rewrite update_rows_cons. cbn [filter].
  assert (matches q (if has_id uid a then apply_kwargs kw a else a)
          = matches q a) as ->
    by (destruct (has_id uid a); [apply Hsame|reflexivity]).
  destruct (matches q a); [rewrite update_rows_cons|]; now rewrite IH.
Qed.

Lemma update_rows_single (kw : list assign) (u : User) :
  update_rows (id u) kw [u] = [apply_kwargs kw u].
Proof.
  unfold update_rows, has_id. cbn [map]. now rewrite Z.eqb_refl.
Qed.

Lemma same_id_same_row (us : list User) (a b : User) :
  NoDup (map id us) -> In a us -> In b us -> id a = id b -> a = b.
Proof.
  induction us as [|x us IH]; [contradiction|].
  cbn [map]. intros ND Ha Hb E. inversion ND as [|y l Hnotin ND']; subst.
  destruct Ha as [->|Ha], Hb as [->|Hb]; auto.
  - elim Hnotin. rewrite E. now apply in_map.
  - elim Hnotin. rewrite <- E. now apply in_map.
Qed.

Lemma registered_is_found (s : state) (e p : string) (u : User) (s1 : state) :
  NoDup (map email (rows s)) ->
  register_user e p s = (inr u, s1) ->
  filter (matches (ByEmail e)) (rows s1) = [u].
Proof.
  intros ND H. apply register_user_inv in H.
  destruct H as (_ & Eu & Es1 & Hno).
  destruct (filter_email_at_most_one (rows s) e ND) as [Hnil|(w & _ & _ & Hw)];
    [|now elim (Hno w)].
  rewrite Es1. cbn [rows]. rewrite filter_app, Hnil. cbn [filter app].
  assert (matches (ByEmail e) u = true) as ->; [|reflexivity].
  apply matches_email. now rewrite Eu.
Qed.

Lemma create_session_found (s : state) (e : string) (u : User) :
  filter (matches (ByEmail e)) (rows s) = [u] ->
  let kw := [SetSessionId (Some (uuid4 (draws s)))] in
  create_session e s =
    (inr (Some (uuid4 (draws s))),
     mkState (update_rows (id u) kw (rows s))
             (calls s ++ [FindUserBy (ByEmail e); UpdateUser (id u) kw])
             (S (draws s))).
Proof.
  intros F kw. destruct (found_in_rows _ _ _ F) as [Hu _].
  unfold create_session, bind, attempt.
  rewrite (find_user_by_found _ _ u F).
  unfold _generate_uuid, bind, draw, ret.
  rewrite (update_user_known _ _ _ u) by (cbn [rows logged]; auto).
  unfold logged. cbn [rows calls draws]. now rewrite <- app_assoc.
Qed.

(** X1.  [register_user] with an email that no row has succeeds: it returns
    a user with that email, the digest of the password under the next salt,
    no session and no reset token, and an id that no earlier row has; the
    table is the old one followed by that user. *)
Theorem register_user_new (s : state) (e p : string) :
  (forall v, In v (rows s) -> email v <> e) ->
  let u := mkUser (next_id (rows s)) e
                  (hashpw (encode_utf8 p) (gensalt (draws s))) None None in
  register_user e p s =
    (inr u,
     mkState (rows s ++ [u])
             (calls s ++ [FindUserBy (ByEmail e); AddUser e])
             (S (draws s))) /\
  (forall v, In v (rows s) -> id v <> id u).
Proof.
  intros Hnew u. split.
  - unfold register_user, bind, attempt.
    rewrite find_user_by_none.
    + run_py. now rewrite <- app_assoc.
    + apply filter_none. intros v Hv. apply matches_email_false. now apply Hnew.
  - intros v Hv. pose proof (next_id_above _ _ Hv). cbn [u id]. lia.
Qed.

(** X2.  Registration followed by login: once [register_user e p] has
    succeeded, [valid_login e p] is [True] and [create_session e] returns a
    token. *)
Theorem register_then_login (s : state) (e p : string) (u : User)
  (s1 : state) :
  (forall pw salt, checkpw pw (hashpw pw salt) = true) ->
  NoDup (map email (rows s)) ->
  register_user e p s = (inr u, s1) ->
  result (valid_login e p) s1 = inr true /\
  result (create_session e) s1 = inr (Some (uuid4 (draws s1))).
Proof.
  intros Hcheck ND H.
  pose proof (registered_is_found _ _ _ _ _ ND H) as F.
  apply register_user_inv in H. destruct H as (_ & Eu & _ & _).
  split.
  - unfold result, valid_login, bind, attempt.
    rewrite (find_user_by_found _ _ u F). unfold ret. cbn [fst].
    rewrite Eu. cbn [hashed_password]. now rewrite Hcheck.
  - unfold result. pose proof (create_session_found s1 e u F) as C.
    cbn zeta in C. now rewrite C.
Qed.

(** X5.  [update_password] with a token that is no row's [reset_token]
    raises [ValueError] after its one lookup: no password is hashed and the
    table is untouched. *)
Theorem update_password_unknown_token (s : state) (t p : string) :
  (forall v, In v (rows s) -> reset_token v <> Some t) ->
  update_password t p s =
    (inl ValueError, logged (FindUserBy (ByResetToken t)) s).
Proof.
  intros H. apply update_password_unknown. apply filter_none.
  intros v Hv. simpl. apply opt_is_false. now apply H.
Qed.

(** X6.  Completing a password reset does not end the user's session:
    after [update_password], the session token the user held still resolves
    to that user, now with the new digest and no reset token. *)
Theorem password_reset_keeps_session (s : state) (t p sid : string)
  (u : User) :
  filter (matches (ByResetToken t)) (rows s) = [u] ->
  filter (matches (BySessionId sid)) (rows s) = [u] ->
  result (update_password t p) s = inr tt /\
  result (get_user_from_session_id (Some sid)) (exec (update_password t p) s) =
    inr (Some (mkUser (id u) (email u)
                      (hashpw (encode_utf8 p) (gensalt (draws s)))
                      (Some sid) None)).
Proof.
  intros Ft Fs.
  pose proof (update_password_found t p s u Ft) as U. cbn zeta in U.
  unfold result at 1. unfold exec. rewrite U. cbn [fst snd].
  split; [reflexivity|].
  destruct (found_in_rows _ _ _ Fs) as [_ M]. simpl in M.
  apply opt_is_true in M.
  unfold result. rewrite (get_user_found _ _ (mkUser (id u) (email u)
                      (hashpw (encode_utf8 p) (gensalt (draws s)))
                      (Some sid) None)); [reflexivity|].
  cbn [rows]. rewrite filter_update_commutes by reflexivity.
  rewrite Fs, update_rows_single. cbn. now rewrite M.
Qed.

(** X7.  A user holds one session at a time: when [create_session] is
    called twice for the same email, the second token resolves to the user
    and the first no longer resolves to anyone. *)
Theorem new_session_replaces_old (s : state) (e T1 T2 : string)
  (s1 s2 : state) :
  NoDup (map id (rows s)) ->
  (forall v, In v (rows s) ->
             session_id v <> Some T1 /\ session_id v <> Some T2) ->
  T1 <> T2 ->
  create_session e s = (inr (Some T1), s1) ->
  create_session e s1 = (inr (Some T2), s2) ->
  result (get_user_from_session_id (Some T1)) s2 = inr None /\
  exists u, result (get_user_from_session_id (Some T2)) s2 = inr (Some u) /\
            email u = e /\ session_id u = Some T2.
Proof.
  intros ND Hfresh Hne C1 C2.
  apply create_session_inv in C1. destruct C1 as (u & Fu & _ & ->).
  apply create_session_inv in C2. cbn [rows draws calls] in C2.
  destruct C2 as (u1 & Fu1 & _ & ->).
  rewrite filter_email_update_rows, Fu, update_rows_single in Fu1.
  injection Fu1 as <-. cbn [id].
  destruct (found_in_rows _ _ _ Fu) as [Hu Mu]. apply matches_email in Mu.
  set (kw1 := [SetSessionId (Some T1)]). set (kw2 := [SetSessionId (Some T2)]).
  set (rows1 := update_rows (id u) kw1 (rows s)).
  assert (forall T, (forall v, In v (rows s) -> session_id v <> Some T) ->
            forall v, In v rows1 -> id v <> id u ->
                      matches (BySessionId T) v = false) as Hothers.
  { intros T HT. apply others_after_update.
    intros v Hv. simpl. apply opt_is_false. now apply HT. }
  split.
  - unfold result. rewrite get_user_none; [reflexivity|]. cbn [rows].
    apply filter_after_clear.
    + apply Hothers. intros v Hv. now apply Hfresh.
    + intros v. simpl. now apply String.eqb_neq.
  - exists (apply_kwargs kw2 (apply_kwargs kw1 u)).
    unfold result. rewrite (get_user_found _ _ (apply_kwargs kw2
                                                  (apply_kwargs kw1 u))).
    + repeat split. exact Mu.
    + cbn [rows]. apply filter_after_update.
      * unfold rows1. now rewrite update_rows_ids.
      * unfold rows1, update_rows. apply in_map_iff. exists u.
        split; [|assumption]. unfold has_id. now rewrite Z.eqb_refl.
      * apply apply_kwargs_id.
      * apply Hothers. intros v Hv. now apply Hfresh.
      * simpl. apply String.eqb_refl.
Qed.

(** X8.  [destroy_session] is idempotent, and it ends nobody else's
    session: a token held by a user with another id resolves to the same
    row afterwards. *)
Theorem destroy_session_isolated (s : state) (user_id : Z) (sid : string)
  (v : User) :
  rows (exec (destroy_session user_id) (exec (destroy_session user_id) s)) =
    rows (exec (destroy_session user_id) s) /\
  (filter (matches (BySessionId sid)) (rows s) = [v] -> id v <> user_id ->
   result (get_user_from_session_id (Some sid))
          (exec (destroy_session user_id) s) = inr (Some v)).
Proof.
  destruct (destroy_session_run s user_id) as [_ U1].
  destruct (destroy_session_run (exec (destroy_session user_id) s) user_id)
    as [_ U2].
  split.
  - rewrite U2, U1. unfold update_rows. rewrite map_map. apply map_ext.
    intros w. destruct (has_id user_id w) eqn:Hw; [|now rewrite Hw].
    unfold has_id in *. rewrite apply_kwargs_id, Hw. reflexivity.
  - intros F Hne. unfold result. rewrite (get_user_found _ _ v); [reflexivity|].
    rewrite U1. now apply filter_update_other.
Qed.

(** X11.  [create_session] for one user leaves the session of every other
    user as it was: a token held by a user with another email resolves to
    the same row afterwards. *)
Theorem create_session_isolated (s : state) (e T sid : string) (s1 : state)
  (v : User) :
  NoDup (map id (rows s)) ->
  create_session e s = (inr (Some T), s1) ->
  filter (matches (BySessionId sid)) (rows s) = [v] ->
  email v <> e -> T <> sid ->
  result (get_user_from_session_id (Some sid)) s1 = inr (Some v).
Proof.
  intros ND C F He HT.
  apply create_session_inv in C. destruct C as (u & Fu & _ & ->).
  destruct (found_in_rows _ _ _ Fu) as [Hu Mu]. apply matches_email in Mu.
  destruct (found_in_rows _ _ _ F) as [Hv _].
  unfold result. rewrite (get_user_found _ _ v); [reflexivity|].
  cbn [rows]. apply filter_update_other; [assumption| |].
  - intros E. apply He.
    now rewrite (same_id_same_row _ _ _ ND Hv Hu E).
  - intros w. simpl. now apply String.eqb_neq.
Qed.

(** X12.  A user has one pending reset at a time: when
    [get_reset_password_token] is called twice for the same email, the first
    token is refused by [update_password] and the second is accepted. *)
Theorem new_reset_token_replaces_old (s : state) (e T1 T2 p : string)
  (s1 s2 : state) :
  NoDup (map id (rows s)) ->
  (forall v, In v (rows s) ->
             reset_token v <> Some T1 /\ reset_token v <> Some T2) ->
  T1 <> T2 ->
  get_reset_password_token e s = (inr T1, s1) ->
  get_reset_password_token e s1 = (inr T2, s2) ->
  result (update_password T1 p) s2 = inl ValueError /\
  result (update_password T2 p) s2 = inr tt.
Proof.
  intros ND Hfresh Hne C1 C2.
  apply get_reset_password_token_inv in C1. destruct C1 as (u & Fu & _ & ->).
  apply get_reset_password_token_inv in C2. cbn [rows draws calls] in C2.
  destruct C2 as (u1 & Fu1 & _ & ->).
  rewrite filter_email_update_rows, Fu, update_rows_single in Fu1.
  injection Fu1 as <-. cbn [id].
  destruct (found_in_rows _ _ _ Fu) as [Hu _].
  set (kw1 := [SetResetToken (Some T1)]). set (kw2 := [SetResetToken (Some T2)]).
  set (rows1 := update_rows (id u) kw1 (rows s)).
  assert (forall T, (forall v, In v (rows s) -> reset_token v <> Some T) ->
            forall v, In v rows1 -> id v <> id u ->
                      matches (ByResetToken T) v = false) as Hothers.
  { intros T HT. apply others_after_update.
    intros v Hv. simpl. apply opt_is_false. now apply HT. }
  split.
  - unfold result. rewrite update_password_unknown; [reflexivity|]. cbn [rows].
    apply filter_after_clear.
    + apply Hothers. intros v Hv. now apply Hfresh.
    + intros v. simpl. now apply String.eqb_neq.
  - unfold result.
    pose proof (update_password_found T2 p
                  (mkState (update_rows (id u) kw2 rows1)
                     ((calls s ++ [FindUserBy (ByEmail e); UpdateUser (id u) kw1])
                        ++ [FindUserBy (ByEmail e); UpdateUser (id u) kw2])
                     (S (S (draws s))))
                  (apply_kwargs kw2 (apply_kwargs kw1 u))) as U.
    cbn zeta in U. rewrite U; [reflexivity|].
    cbn [rows]. apply filter_after_update.
    + unfold rows1. now rewrite update_rows_ids.
    + unfold rows1, update_rows. apply in_map_iff. exists u.
      split; [|assumption]. unfold has_id. now rewrite Z.eqb_refl.
    + apply apply_kwargs_id.
    + apply Hothers. intros v Hv. now apply Hfresh.
    + simpl. apply String.eqb_refl.
Qed.

(** X13.  Lookups are sound in every state: [get_user_from_session_id]
    only returns a row of the table that holds the token that was asked for,
    and [valid_login] only returns [True] when a row with that email has a
    digest that [bcrypt.checkpw] accepts for the password. *)
Theorem lookups_are_sound (s : state) :
  (forall sid u s1, get_user_from_session_id sid s = (inr (Some u), s1) ->
     exists t, sid = Some t /\ In u (rows s) /\ session_id u = Some t) /\
  (forall e p s1, valid_login e p s = (inr true, s1) ->
     exists u, In u (rows s) /\ email u = e /\
               checkpw (encode_utf8 p) (hashed_password u) = true).
Proof.
  split.
  - intros [t|] u s1; [|discriminate].
    unfold get_user_from_session_id, bind, attempt.
    destruct (find_user_by (BySessionId t) s) as [[ex|w] s'] eqn:F.
    { apply find_user_by_raises in F. destruct F as (-> & -> & _).
      discriminate. }
    apply find_user_by_inv in F. destruct F as [Fw ->].
    unfold ret. intros H. inversion H; subst.
    destruct (found_in_rows _ _ _ Fw) as [Hu M].
    exists t. split; [reflexivity|]. split; [assumption|].
    simpl in M. now apply opt_is_true.
  - intros e p s1. unfold valid_login, bind, attempt.
    destruct (find_user_by (ByEmail e) s) as [[ex|w] s'] eqn:F.
    { apply find_user_by_raises in F. destruct F as (-> & -> & _).
      discriminate. }
    apply find_user_by_inv in F. destruct F as [Fw ->].
    unfold ret. intros H. injection H as C _.
    destruct (found_in_rows _ _ _ Fw) as [Hu M].
    exists w. split; [assumption|]. split; [now apply matches_email|assumption].
Qed.

(** X14.  After [destroy_session user_id] no token at all resolves to a user
    with that id. *)
Theorem destroy_session_ends_every_session (s : state) (user_id : Z)
  (sid : option string) (u : User) :
  result (get_user_from_session_id sid) (exec (destroy_session user_id) s)
    = inr (Some u) ->
  id u <> user_id.
Proof.
  destruct (destroy_session_run s user_id) as [_ U].
  destruct sid as [t|]; [|discriminate].
  unfold result, get_user_from_session_id, bind, attempt.
  destruct (find_user_by (BySessionId t) (exec (destroy_session user_id) s))
    as [[ex|w] s'] eqn:F.
  { apply find_user_by_raises in F. destruct F as (-> & -> & _).
    discriminate. }
  apply find_user_by_inv in F. destruct F as [Fw ->].
  unfold ret. cbn [fst]. intros H. inversion H; subst.
  destruct (found_in_rows _ _ _ Fw) as [Hu M].
  rewrite U in Hu. apply in_update_rows in Hu.
  destruct Hu as [(w & _ & _ & ->)|[_ N]]; [discriminate|assumption].
Qed.

(** X15.  [update_password] changes one account only: for a user with
    another id, [valid_login] answers afterwards what it answered before. *)
Theorem update_password_isolated (s : state) (t p e' p' : string)
  (u v : User) :
  filter (matches (ByResetToken t)) (rows s) = [u] ->
  filter (matches (ByEmail e')) (rows s) = [v] ->
  id v <> id u ->
  result (valid_login e' p') (exec (update_password t p) s) =
  result (valid_login e' p') s.
Proof.
  intros Ft Fe Hne.
  pose proof (update_password_found t p s u Ft) as U. cbn zeta in U.
  unfold exec. rewrite U. cbn [snd].
  unfold result, valid_login, bind, attempt.
  rewrite (find_user_by_found _ _ v Fe).
  rewrite (find_user_by_found _ _ v); [reflexivity|].
  cbn [rows]. rewrite filter_email_update_rows, Fe.
  unfold update_rows, has_id. cbn [map].
  now rewrite (proj2 (Z.eqb_neq _ _) Hne).
Qed.

End Auth.

(** ** The Basic-authentication base class *)

(** C10.  The base [Auth] class is a constant stub: [require_auth] is
    [False] for every path and exclusion list, and [authorization_header] and
    [current_user] are [None] for every request, [None] included. *)
Theorem basic_auth_is_a_stub (path : string) (excluded_paths : list string)
  (request : option BasicAuth.Request) :
  BasicAuth.require_auth path excluded_paths = false /\
  BasicAuth.authorization_header request = None /\
  BasicAuth.current_user request = None.
Proof. repeat split. Qed.

(** ** The service run on the concrete entropy source and hash *)

Lemma sample_checkpw_hashpw (pw salt : bytes) :
  sample_checkpw pw (sample_hashpw pw salt) = true.
Proof.
  unfold sample_checkpw, sample_hashpw.
  induction pw as [|b pw IH]; [reflexivity|].
  simpl. rewrite IH. now rewrite (Byte.byte_dec_lb eq_refl).
Qed.

Lemma sample_hashpw_salt (pw salt1 salt2 : bytes) :
  sample_hashpw pw salt1 = sample_hashpw pw salt2 -> salt1 = salt2.
Proof. unfold sample_hashpw. apply app_inv_head. Qed.

Lemma two_users_emails : NoDup (map email (rows two_users)).
Proof.
  simpl. repeat constructor; simpl; intuition discriminate.
Qed.

Lemma two_users_ids : NoDup (map id (rows two_users)).
Proof.
  simpl. repeat constructor; simpl; intuition discriminate.
Qed.

Lemma two_users_no_carol (u : User) :
  In u (rows two_users) -> email u <> "carol@x.com"%string.
Proof. simpl. intros [<-|[<-|[]]]; discriminate. Qed.

(** C7 at work: an unknown email logs in as [False], alice's password as
    [True], a wrong password as [False]. *)
Lemma valid_login_spec_witness :
  valid_login sample_checkpw "carol@x.com" "pw" two_users =
    (inr false, logged (FindUserBy (ByEmail "carol@x.com")) two_users) /\
  valid_login sample_checkpw "alice@x.com" "pw" two_users =
    (inr true, logged (FindUserBy (ByEmail "alice@x.com")) two_users) /\
  valid_login sample_checkpw "alice@x.com" "pw2" two_users =
    (inr false, logged (FindUserBy (ByEmail "alice@x.com")) two_users).
Proof.
  split; [|split].
  - exact (proj1 (valid_login_spec sample_checkpw two_users "carol@x.com" "pw")
                 two_users_no_carol).
  - exact (proj2 (valid_login_spec sample_checkpw two_users "alice@x.com" "pw")
                 alice two_users_emails (or_introl eq_refl) eq_refl).
  - exact (proj2 (valid_login_spec sample_checkpw two_users "alice@x.com" "pw2")
                 alice two_users_emails (or_introl eq_refl) eq_refl).
Defined.

(** C5 at work: an id no row has changes nothing and raises nothing; bob's
    id clears bob's session. *)
Lemma destroy_session_spec_witness :
  result (destroy_session 7) two_users = inr tt /\
  rows (exec (destroy_session 7) two_users) = rows two_users /\
  rows (exec (destroy_session 2) two_users) =
    [alice; mkUser 2 "bob@x.com" (hashed_password bob) None None].
Proof.
  destruct (destroy_session_spec two_users 7) as (R & _ & _ & U).
  split; [exact R|]. split.
  - apply U. simpl. intros u [<-|[<-|[]]]; discriminate.
  - destruct (destroy_session_spec two_users 2) as (_ & U2 & _).
    rewrite U2. reflexivity.
Defined.

(** C8 at work. *)
Lemma create_session_spec_witness :
  create_session sample_uuid4 "carol@x.com" two_users =
    (inr None, logged (FindUserBy (ByEmail "carol@x.com")) two_users) /\
  result (create_session sample_uuid4 "alice@x.com") two_users =
    inr (Some "uuu"%string) /\
  rows (exec (create_session sample_uuid4 "alice@x.com") two_users) =
    [mkUser 1 "alice@x.com" (hashed_password alice) (Some "uuu"%string) None;
     bob].
Proof.
  split.
  - exact (proj1 (create_session_spec sample_uuid4 two_users "carol@x.com")
                 two_users_no_carol).
  - destruct (proj2 (create_session_spec sample_uuid4 two_users "alice@x.com")
                    alice two_users_emails (or_introl eq_refl) eq_refl)
      as (R & _ & _).
    unfold result, exec. rewrite R. split; reflexivity.
Defined.

(** C9 at work. *)
Lemma get_reset_password_token_spec_witness :
  get_reset_password_token sample_uuid4 "carol@x.com" two_users =
    (inl ValueError, logged (FindUserBy (ByEmail "carol@x.com")) two_users) /\
  result (get_reset_password_token sample_uuid4 "alice@x.com") two_users =
    inr "uuu"%string /\
  rows (exec (get_reset_password_token sample_uuid4 "alice@x.com") two_users) =
    [mkUser 1 "alice@x.com" (hashed_password alice) None (Some "uuu"%string);
     bob].
Proof.
  split.
  - exact (proj1 (get_reset_password_token_spec sample_uuid4 two_users
                    "carol@x.com") two_users_no_carol).
  - destruct (proj2 (get_reset_password_token_spec sample_uuid4 two_users
                       "alice@x.com")
                    alice two_users_emails (or_introl eq_refl) eq_refl)
      as (R & _ & _).
    unfold result, exec. rewrite R. split; reflexivity.
Defined.

(** C1 at work, from the empty table. *)
Lemma register_user_twice_witness :
  let first := register_user sample_gensalt sample_hashpw "a@x.com" "pw" in
  let again := register_user sample_gensalt sample_hashpw "a@x.com" "pw2" in
  result again (exec first init) = inl ValueError /\
  rows (exec again (exec first init)) =
    [mkUser 1 "a@x.com" (sample_hashpw (encode_utf8 "pw") (sample_gensalt 0))
            None None].
Proof.
  cbv zeta.
  destruct (register_user_twice sample_gensalt sample_hashpw init
              "a@x.com" "pw" "pw2"
              (mkUser 1 "a@x.com"
                 (sample_hashpw (encode_utf8 "pw") (sample_gensalt 0))
                 None None)
              (exec (register_user sample_gensalt sample_hashpw
                       "a@x.com" "pw") init)
              (NoDup_nil _) eq_refl) as (R & _ & U & _).
  split.
  - unfold result. now rewrite R.
  - rewrite U. reflexivity.
Defined.

(** C3 at work. *)
Lemma session_round_trip_witness :
  let s1 := exec (create_session sample_uuid4 "alice@x.com") two_users in
  let s2 := exec (get_user_from_session_id (Some "uuu"%string)) s1 in
  let s3 := exec (destroy_session 1) s2 in
  result (get_user_from_session_id (Some "uuu"%string)) s1 =
    inr (Some (mkUser 1 "alice@x.com" (hashed_password alice)
                      (Some "uuu"%string) None)) /\
  result (destroy_session 1) s2 = inr tt /\
  result (get_user_from_session_id (Some "uuu"%string)) s3 = inr None.
Proof.
  cbv zeta.
  destruct (session_round_trip sample_uuid4 two_users "alice@x.com" "uuu"
              (exec (create_session sample_uuid4 "alice@x.com") two_users)
              two_users_ids) as (u & Hu & Eu & G & D & N).
  - simpl. intros v [<-|[<-|[]]]; discriminate.
  - reflexivity.
  - assert (u = alice) as ->.
    { simpl in Hu. destruct Hu as [<-|[<-|[]]]; [reflexivity|discriminate]. }
    repeat split; assumption.
Defined.

(** C2 at work. *)
Lemma password_reset_flow_witness :
  let s1 := exec (get_reset_password_token sample_uuid4 "alice@x.com")
                 two_users in
  let reset := update_password sample_gensalt sample_hashpw "uuu" in
  let s2 := exec (reset "newpw"%string) s1 in
  let s3 := exec (valid_login sample_checkpw "alice@x.com" "newpw") s2 in
  result (reset "newpw"%string) s1 = inr tt /\
  result (valid_login sample_checkpw "alice@x.com" "newpw") s2 = inr true /\
  result (reset "x"%string) s3 = inl ValueError.
Proof.
  cbv zeta.
  destruct (password_reset_flow sample_uuid4 sample_gensalt sample_hashpw
              sample_checkpw two_users "alice@x.com" "uuu" "newpw"
              (exec (get_reset_password_token sample_uuid4 "alice@x.com")
                    two_users)
              sample_checkpw_hashpw two_users_ids)
    as (u & _ & _ & R & _ & L & X).
  - simpl. intros v [<-|[<-|[]]]; discriminate.
  - reflexivity.
  - split; [exact R|]. split; [exact L|exact (X "x"%string)].
Defined.

(** C6 at work. *)
Lemma hash_password_spec_witness :
  exists h1 h2 s1 s2,
    _hash_password sample_gensalt sample_hashpw "pw" init = (inr h1, s1) /\
    _hash_password sample_gensalt sample_hashpw "pw" s1 = (inr h2, s2) /\
    py_eq (PyBytes h1) (PyStr "pw") = false /\
    py_eq (PyBytes h2) (PyStr "pw") = false /\
    sample_checkpw (encode_utf8 "pw") h1 = true /\
    sample_checkpw (encode_utf8 "pw") h2 = true /\
    h1 <> h2.
Proof.
  apply (hash_password_spec sample_gensalt sample_hashpw sample_checkpw
           init "pw" sample_checkpw_hashpw sample_hashpw_salt).
  simpl. discriminate.
Defined.

(** C4 at work: a token that one row holds, and a token that none holds. *)
Lemma get_user_from_session_id_guard_witness :
  result (get_user_from_session_id (Some "s-erin"%string)) active_users =
    inr (Some erin) /\
  result (get_user_from_session_id (Some "s-nobody"%string)) active_users =
    inr None.
Proof.
  destruct (get_user_from_session_id_guard active_users)
    as (_ & _ & _ & Hone & Hnone & _).
  split.
  - apply Hone. reflexivity.
  - apply Hnone. simpl. discriminate.
Defined.

(** C4 as the spec states it fails on the empty string: the call reaches the
    store, and a row whose [session_id] is the empty string is returned. *)
Lemma empty_session_id_is_looked_up :
  exec (get_user_from_session_id (Some ""%string)) init =
    logged (FindUserBy (BySessionId "")) init /\
  calls (exec (get_user_from_session_id (Some ""%string)) init) <> calls init /\
  result (get_user_from_session_id (Some ""%string)) two_users =
    inr (Some bob).
Proof.
  split; [reflexivity|]. split; [simpl; discriminate|reflexivity].
Qed.

(** ** The composed calls at work on [active_users] *)

Lemma active_users_ids : NoDup (map id (rows active_users)).
Proof. simpl. repeat constructor; simpl; intuition discriminate. Qed.

(** X1 at work. *)
Lemma register_user_new_witness :
  result (register_user sample_gensalt sample_hashpw "gina@x.com" "pw")
         active_users =
    inr (mkUser 3 "gina@x.com"
                (sample_hashpw (encode_utf8 "pw") (sample_gensalt 2))
                None None) /\
  forall v, In v (rows active_users) -> id v <> 3.
Proof.
  destruct (register_user_new sample_gensalt sample_hashpw active_users
              "gina@x.com" "pw") as [R I].
  - simpl. intros v [<-|[<-|[]]]; discriminate.
  - split; [|exact I]. unfold result. now rewrite R.
Defined.

(** X2 at work, from the empty table. *)
Lemma register_then_login_witness :
  let s1 := exec (register_user sample_gensalt sample_hashpw "a@x.com" "pw")
                 init in
  result (valid_login sample_checkpw "a@x.com" "pw") s1 = inr true /\
  result (create_session sample_uuid4 "a@x.com") s1 = inr (Some "uu"%string).
Proof.
  cbv zeta.
  exact (register_then_login sample_uuid4 sample_gensalt sample_hashpw
           sample_checkpw init "a@x.com" "pw"
           (mkUser 1 "a@x.com"
                   (sample_hashpw (encode_utf8 "pw") (sample_gensalt 0))
                   None None)
           (exec (register_user sample_gensalt sample_hashpw "a@x.com" "pw")
                 init)
           sample_checkpw_hashpw (NoDup_nil _) eq_refl).
Defined.

(** X5 at work: a session token is not a reset token. *)
Lemma update_password_unknown_token_witness :
  update_password sample_gensalt sample_hashpw "s-erin" "pw2" active_users =
    (inl ValueError, logged (FindUserBy (ByResetToken "s-erin")) active_users).
Proof.
  apply update_password_unknown_token.
  simpl. intros v [<-|[<-|[]]]; discriminate.
Defined.

(** X6 at work. *)
Lemma password_reset_keeps_session_witness :
  result (get_user_from_session_id (Some "s-erin"%string))
         (exec (update_password sample_gensalt sample_hashpw "r-erin" "pw2")
               active_users) =
    inr (Some (mkUser 1 "erin@x.com"
                      (sample_hashpw (encode_utf8 "pw2") (sample_gensalt 2))
                      (Some "s-erin"%string) None)).
Proof.
  exact (proj2 (password_reset_keeps_session sample_gensalt sample_hashpw
                  active_users "r-erin" "pw2" "s-erin" erin eq_refl eq_refl)).
Defined.

(** X7 at work. *)
Lemma new_session_replaces_old_witness :
  let login := create_session sample_uuid4 "erin@x.com" in
  let s2 := exec login (exec login active_users) in
  result (get_user_from_session_id (Some "uuu"%string)) s2 = inr None /\
  exists u, result (get_user_from_session_id (Some "uuuu"%string)) s2
              = inr (Some u) /\
            email u = "erin@x.com"%string /\
            session_id u = Some "uuuu"%string.
Proof.
  cbv zeta.
  apply (new_session_replaces_old sample_uuid4 active_users "erin@x.com"
           "uuu" "uuuu"
           (exec (create_session sample_uuid4 "erin@x.com") active_users)
           (exec (create_session sample_uuid4 "erin@x.com")
                 (exec (create_session sample_uuid4 "erin@x.com")
                       active_users))
           active_users_ids).
  - simpl. intros v [<-|[<-|[]]]; split; discriminate.
  - discriminate.
  - reflexivity.
  - reflexivity.
Defined.

(** X8 at work. *)
Lemma destroy_session_isolated_witness :
  result (get_user_from_session_id (Some "s-frank"%string))
         (exec (destroy_session 1) active_users) = inr (Some frank).
Proof.
  apply (proj2 (destroy_session_isolated active_users 1 "s-frank" frank)).
  - reflexivity.
  - discriminate.
Defined.

(** X9 at work: an email nobody has, and erin's. *)
Lemma create_session_never_raises_witness :
  exec (create_session sample_uuid4 "nobody@x.com") active_users =
    logged (FindUserBy (ByEmail "nobody@x.com")) active_users /\
  "uuu"%string = sample_uuid4 (draws active_users) /\
  exists u, filter (matches (ByEmail "erin@x.com")) (rows active_users) = [u].
Proof.
  destruct (create_session_never_raises sample_uuid4 active_users)
    as (_ & Hnone & Hsome).
  split.
  - apply Hnone. reflexivity.
  - apply (Hsome "erin@x.com"%string "uuu"%string). reflexivity.
Defined.

(** X10 at work: nobody has this email. *)
Lemma reset_request_failure_changes_nothing_witness :
  result (get_reset_password_token sample_uuid4 "nobody@x.com") active_users =
    inl ValueError /\
  exec (get_reset_password_token sample_uuid4 "nobody@x.com") active_users =
    logged (FindUserBy (ByEmail "nobody@x.com")) active_users.
Proof.
  destruct (reset_request_failure_changes_nothing sample_uuid4 active_users
              "nobody@x.com" ValueError
              (exec (get_reset_password_token sample_uuid4 "nobody@x.com")
                    active_users) eq_refl) as (_ & E & _).
  split; [reflexivity|exact E].
Defined.

(** X11 at work. *)
Lemma create_session_isolated_witness :
  result (get_user_from_session_id (Some "s-frank"%string))
         (exec (create_session sample_uuid4 "erin@x.com") active_users) =
    inr (Some frank).
Proof.
  apply (create_session_isolated sample_uuid4 active_users "erin@x.com" "uuu"
           "s-frank" _ frank active_users_ids eq_refl eq_refl);
    discriminate.
Defined.

(** X12 at work. *)
Lemma new_reset_token_replaces_old_witness :
  let ask := get_reset_password_token sample_uuid4 "erin@x.com" in
  let s2 := exec ask (exec ask active_users) in
  result (update_password sample_gensalt sample_hashpw "uuu" "pw2") s2 =
    inl ValueError /\
  result (update_password sample_gensalt sample_hashpw "uuuu" "pw2") s2 =
    inr tt.
Proof.
  cbv zeta.
  apply (new_reset_token_replaces_old sample_uuid4 sample_gensalt sample_hashpw
           active_users "erin@x.com" "uuu" "uuuu" "pw2"
           (exec (get_reset_password_token sample_uuid4 "erin@x.com")
                 active_users)
           (exec (get_reset_password_token sample_uuid4 "erin@x.com")
                 (exec (get_reset_password_token sample_uuid4 "erin@x.com")
                       active_users))
           active_users_ids).
  - simpl. intros v [<-|[<-|[]]]; split; discriminate.
  - discriminate.
  - reflexivity.
  - reflexivity.
Defined.

(** X13 at work. *)
Lemma lookups_are_sound_witness :
  (exists t, Some "s-erin"%string = Some t /\ In erin (rows active_users) /\
             session_id erin = Some t) /\
  (exists u, In u (rows active_users) /\ email u = "frank@x.com"%string /\
             sample_checkpw (encode_utf8 "pw") (hashed_password u) = true).
Proof.
  split.
  - exact (proj1 (lookups_are_sound sample_checkpw active_users)
                 (Some "s-erin"%string) erin _ eq_refl).
  - exact (proj2 (lookups_are_sound sample_checkpw active_users)
                 "frank@x.com"%string "pw"%string _ eq_refl).
Defined.

(** X14 at work. *)
Lemma destroy_session_ends_every_session_witness :
  result (get_user_from_session_id (Some "s-frank"%string))
         (exec (destroy_session 1) active_users) = inr (Some frank) /\
  id frank <> 1.
Proof.
  split; [reflexivity|].
  exact (destroy_session_ends_every_session active_users 1
           (Some "s-frank"%string) frank eq_refl).
Defined.

(** X15 at work. *)
Lemma update_password_isolated_witness :
  result (valid_login sample_checkpw "frank@x.com" "pw")
         (exec (update_password sample_gensalt sample_hashpw "r-erin" "pw2")
               active_users) =
  result (valid_login sample_checkpw "frank@x.com" "pw") active_users.
Proof.
  apply (update_password_isolated sample_gensalt sample_hashpw sample_checkpw
           active_users "r-erin" "pw2" "frank@x.com" "pw" erin frank
           eq_refl eq_refl).
  discriminate.
Defined.
